(** * Map Poster API: the request handlers of [main.py]

    A shallow embedding of the FastAPI handlers [generate_poster] and
    [preview_poster], of the [Query] declarations of their parameters,
    and of the way an exception leaving a handler becomes an HTTP reply.

    The functions imported from [create_map_poster] ([load_theme],
    [get_coordinates], [create_poster]) and the operating system behind
    [tempfile.NamedTemporaryFile] are collaborators: they are the fields
    of a record, and every handler is a function of that record, as are
    the two text functions of the Python runtime that need its Unicode
    tables ([str.lower] and [repr]).  A handler runs in a small monad
    that threads the files on disk, stops at the first raised exception,
    and writes down every call it makes.

    A Python [str] is represented by its UTF-8 encoding: a [string] here
    is the sequence of bytes of a well-formed UTF-8 text. *)

From Stdlib Require Import ZArith Ascii String List.
From stdpp Require Import base option gmap strings list fin_maps pretty.

Open Scope string_scope.
Open Scope Z_scope.

(** ** Python values the handlers touch *)

(** The code points of a text, decoded from its UTF-8 bytes: a lead byte
    opens a code point, a continuation byte adds six bits to it. *)
Definition utf8_step (decoded : list N) (c : ascii) : list N :=
  let n := N_of_ascii c in
  if (n <? 128)%N then n :: decoded
  else if (n <? 192)%N then
    match decoded with
    | cp :: earlier => (cp * 64 + (n - 128))%N :: earlier
    | [] => []
    end
  else if (n <? 224)%N then (n - 192)%N :: decoded
  else if (n <? 240)%N then (n - 224)%N :: decoded
  else (n - 240)%N :: decoded.

Definition code_points (s : string) : list N :=
  rev (fold_left utf8_step (list_ascii_of_string s) []).

(** Whether [s.encode("latin-1")] succeeds: every code point is below 256. *)
Definition latin1_encodable (s : string) : bool :=
  forallb (λ cp, (cp <? 256)%N) (code_points s).

Fixpoint take_while {A} (keep : A → bool) (l : list A) : list A :=
  match l with
  | x :: rest => if keep x then x :: take_while keep rest else []
  | [] => []
  end.

Definition hex_digit (d : N) : ascii :=
  ascii_of_N (if (d <? 10)%N then 48 + d else 87 + d).

(** [width] lower-case hexadecimal digits of [n], as C's [%0<width>x]. *)
Fixpoint hex (width : nat) (n : N) : string :=
  match width with
  | O => EmptyString
  | S w => hex w (n / 16) +:+ String (hex_digit (n mod 16)) EmptyString
  end.

(** [str(e)] of the [UnicodeEncodeError] that [s.encode("latin-1")]
    raises: the codec reports the first run of code points it cannot
    encode, by position, and names the character when the run has
    length one. *)
Definition latin1_error_message (s : string) : string :=
  let cps := code_points s in
  let start := length (take_while (λ cp, (cp <? 256)%N) cps) in
  let bad := take_while (λ cp, negb (cp <? 256)%N) (drop start cps) in
  match bad with
  | [cp] =>
      "'latin-1' codec can't encode character '"
        +:+ (if (cp <? 65536)%N then "\u" +:+ hex 4 cp else "\U" +:+ hex 8 cp)
        +:+ "' in position " +:+ pretty (Z.of_nat start)
        +:+ ": ordinal not in range(256)"
  | _ =>
      "'latin-1' codec can't encode characters in position "
        +:+ pretty (Z.of_nat start) +:+ "-"
        +:+ pretty (Z.of_nat (start + length bad - 1))
        +:+ ": ordinal not in range(256)"
  end.

(** [str.lower()] on ASCII text: the letters A-Z are mapped, every other
    byte is kept.  It is the [str_lower] of the demonstration runtime
    below, whose cities have no upper-case letter outside ASCII. *)
Definition lower_char (c : ascii) : ascii :=
  let n := nat_of_ascii c in
  if ((65 <=? n)%nat && (n <=? 90)%nat)%bool then ascii_of_nat (n + 32) else c.

Fixpoint ascii_lower (s : string) : string :=
  match s with
  | EmptyString => EmptyString
  | String c rest => String (lower_char c) (ascii_lower rest)
  end.

(** A finite Python [float]: the number [mantissa * 2 ^ exponent].  The
    handlers only hand coordinates on, they never compute with them. *)
Record pyfloat := { mantissa : Z; exponent : Z }.

(** The pair returned by [get_coordinates]; [coords[0]] and [coords[1]]. *)
Definition Coordinates : Type := pyfloat * pyfloat.

(** What [load_theme] hands back: [None] is Python's [None], [Some d] a
    [dict] read from a theme file. *)
Abbreviation ThemeData := (option (gmap string string)).

(** Python truthiness of that value, as tested by [if not theme_data]. *)
Definition truthy (theme_data : ThemeData) : bool :=
  match theme_data with
  | None => false
  | Some d => negb (bool_decide (d = ∅))
  end.

(** The exceptions of class [Exception] that can travel through a
    handler.  A constructor stands for a class together with its
    subclasses, as [except] matches them; [message] is [str(e)] for the
    classes whose [str] is their single argument. *)
Inductive exn :=
| ValueError (message : string)
| HTTPException (status_code : Z) (detail : string)
| OtherException (class_name : string) (message : string).

(** [str(e)].  Starlette's [HTTPException.__str__] is
    [f"{self.status_code}: {self.detail}"]. *)
Definition str (e : exn) : string :=
  match e with
  | ValueError message => message
  | HTTPException status_code detail => pretty status_code +:+ ": " +:+ detail
  | OtherException _ message => message
  end.

(** ** The files on disk and the calls a handler makes *)

Abbreviation Files := (gmap string (list Byte.byte)).

(** Keyword arguments of the one call to [create_poster]. *)
Record PosterArgs := {
  arg_city : string;
  arg_country : string;
  arg_point : Coordinates;
  arg_dist : Z;
  arg_output_file : string;
  arg_output_format : string;
  arg_width : Z;
  arg_height : Z;
  arg_display_city : option string;
  arg_display_country : option string;
}.

Inductive Event :=
| CallLoadTheme (theme_name : string)
| CallPrint (line : string)
| CallGetCoordinates (city country : string)
| CallNamedTemporaryFile (suffix : string)
| CallCreatePoster (args : PosterArgs)
| CallOpenRead (path : string)
| CallUnlink (path : string).

(** ** Results and the handler monad *)

Inductive Outcome (A : Type) :=
| Ok (value : A)
| Raise (e : exn).
Arguments Ok {A} value.
Arguments Raise {A} e.

Record Run (A : Type) := {
  outcome : Outcome A;
  files : Files;
  trace : list Event;
}.
Arguments outcome {A} _.
Arguments files {A} _.
Arguments trace {A} _.

Definition M (A : Type) : Type := Files → Run A.

Definition ret {A} (a : A) : M A :=
  λ fs, {| outcome := Ok a; files := fs; trace := [] |}.

Definition raise {A} (e : exn) : M A :=
  λ fs, {| outcome := Raise e; files := fs; trace := [] |}.

Definition bind {A B} (m : M A) (k : A → M B) : M B :=
  λ fs,
    match m fs with
    | {| outcome := Ok a; files := fs1; trace := t1 |} =>
        match k a fs1 with
        | {| outcome := o; files := fs2; trace := t2 |} =>
            {| outcome := o; files := fs2; trace := t1 ++ t2 |}
        end
    | {| outcome := Raise e; files := fs1; trace := t1 |} =>
        {| outcome := Raise e; files := fs1; trace := t1 |}
    end.

(** [try: m  except ... as e: handler e]: every clause of the source ends
    in a [raise], and a handler that matches nothing re-raises [e]. *)
Definition try_except {A} (m : M A) (handler : exn → M A) : M A :=
  λ fs,
    match m fs with
    | {| outcome := Ok a; files := fs1; trace := t1 |} =>
        {| outcome := Ok a; files := fs1; trace := t1 |}
    | {| outcome := Raise e; files := fs1; trace := t1 |} =>
        match handler e fs1 with
        | {| outcome := o; files := fs2; trace := t2 |} =>
            {| outcome := o; files := fs2; trace := t1 ++ t2 |}
        end
    end.

Notation "'do' x <- m ; k" := (bind m (λ x, k))
  (at level 10, x name, m at level 100, k at level 200).
Notation "'do_' m ; k" := (bind m (λ _, k))
  (at level 10, m at level 100, k at level 200).

(** One call to a collaborator that leaves the disk alone. *)
Definition call {A} (ev : Event) (result : Outcome A) : M A :=
  λ fs, {| outcome := result; files := fs; trace := [ev] |}.

(** ** Collaborators *)

Record Collaborators := {
  load_theme : string → Outcome ThemeData;
  get_coordinates : string → string → Outcome Coordinates;
  (* writes the poster to [arg_output_file]; may touch the disk and fail *)
  create_poster : PosterArgs → Files → Outcome unit * Files;
  (* the name [tempfile] picks for a new file with the given suffix *)
  temp_name : string → Files → Outcome string;
  (* [s.lower()], with the runtime's Unicode case mapping *)
  str_lower : string → string;
  (* [repr(s)]: quoted, with the runtime's escapes *)
  str_repr : string → string;
}.

Section Handlers.

Variable collab : Collaborators.

Definition invoke_load_theme (theme : string) : M ThemeData :=
  call (CallLoadTheme theme) (load_theme collab theme).

Definition invoke_get_coordinates (city country : string) : M Coordinates :=
  call (CallGetCoordinates city country) (get_coordinates collab city country).

Definition invoke_create_poster (args : PosterArgs) : M unit :=
  λ fs,
    let '(result, fs') := create_poster collab args fs in
    {| outcome := result; files := fs'; trace := [CallCreatePoster args] |}.

(** [print(line)]; writing to standard output is taken to succeed. *)
Definition print (line : string) : M unit :=
  call (CallPrint line) (Ok tt).

(** [with tempfile.NamedTemporaryFile(suffix=..., delete=False) as tmp:
    output_path = tmp.name]: an empty file is created and stays on disk
    after the block. *)
Definition NamedTemporaryFile (suffix : string) : M string :=
  λ fs,
    match temp_name collab suffix fs with
    | Ok path =>
        {| outcome := Ok path; files := <[path := []]> fs;
           trace := [CallNamedTemporaryFile suffix] |}
    | Raise e =>
        {| outcome := Raise e; files := fs; trace := [CallNamedTemporaryFile suffix] |}
    end.

(** [FileNotFoundError(2, "No such file or directory", path)]; its [str]
    formats the file name with [repr]. *)
Definition no_such_file (path : string) : exn :=
  OtherException "FileNotFoundError"
    ("[Errno 2] No such file or directory: " +:+ str_repr collab path).

(** [with open(path, "rb") as f: f.read()] *)
Definition open_read (path : string) : M (list Byte.byte) :=
  λ fs,
    {| outcome := match fs !! path with
                  | Some data => Ok data
                  | None => Raise (no_such_file path)
                  end;
       files := fs; trace := [CallOpenRead path] |}.

(** [os.unlink(path)] *)
Definition unlink (path : string) : M unit :=
  λ fs,
    match fs !! path with
    | Some _ => {| outcome := Ok tt; files := delete path fs; trace := [CallUnlink path] |}
    | None => {| outcome := Raise (no_such_file path); files := fs; trace := [CallUnlink path] |}
    end.

(** [theme_data.get(key, fallback)] *)
Definition dict_get (theme_data : ThemeData) (key fallback : string) : M string :=
  match theme_data with
  | Some d => ret (default fallback (d !! key))
  | None => raise (OtherException "AttributeError"
                     "'NoneType' object has no attribute 'get'")
  end.

(** ** The two handlers *)

(** The parameters of [generate_poster], once FastAPI has bound them. *)
Record PosterRequest := {
  city : string;
  country : string;
  theme : string;
  distance : Z;
  display_city : option string;
  display_country : option string;
  width : Z;
  height : Z;
}.

Record PreviewRequest := {
  preview_city : string;
  preview_country : string;
  preview_theme : string;
}.

(** The dictionary returned by [preview_poster]. *)
Record PreviewInfo := {
  info_city : string;
  info_country : string;
  info_latitude : pyfloat;
  info_longitude : pyfloat;
  info_theme_name : string;
  info_theme_description : string;
}.

Inductive Response :=
| StreamingResponse (content : list Byte.byte) (media_type : string)
    (headers : list (string * string))
| PreviewResponse (info : PreviewInfo).

(** [StreamingResponse(io.BytesIO(content), media_type=..., headers=...)]:
    the constructor encodes every header value as latin-1 and raises
    [UnicodeEncodeError], a [ValueError], at the first one it cannot
    encode.  (It encodes the lower-cased header names too; the one name
    used here is an ASCII literal.) *)
Definition new_StreamingResponse (content : list Byte.byte) (media_type : string)
    (headers : list (string * string)) : M Response :=
  match List.find (λ header, negb (latin1_encodable header.2)) headers with
  | Some header => raise (ValueError (latin1_error_message header.2))
  | None => ret (StreamingResponse content media_type headers)
  end.

(** The body of the [try] block of [generate_poster]. *)
Definition generate_body (req : PosterRequest) : M Response :=
  do theme_data <- invoke_load_theme (theme req);
  do_ (if negb (truthy theme_data)
       then raise (HTTPException 400 ("Theme '" +:+ theme req +:+ "' not found"))
       else ret tt);
  do_ print ("Looking up coordinates for " +:+ city req +:+ ", " +:+ country req +:+ "...");
  do coords <- invoke_get_coordinates (city req) (country req);
  do output_path <- NamedTemporaryFile ".png";
  do_ invoke_create_poster
        {| arg_city := city req;
           arg_country := country req;
           arg_point := coords;
           arg_dist := distance req;
           arg_output_file := output_path;
           arg_output_format := "png";
           arg_width := width req;
           arg_height := height req;
           arg_display_city := display_city req;
           arg_display_country := display_country req |};
  do image_data <- open_read output_path;
  do_ unlink output_path;
  new_StreamingResponse image_data "image/png"
    [("Content-Disposition",
      "attachment; filename=" +:+ str_lower collab (city req) +:+ "_" +:+ theme req
        +:+ "_poster.png")].

(** The two [except] clauses of [generate_poster], tried in order. *)
Definition generate_except (e : exn) : M Response :=
  match e with
  | ValueError _ => raise (HTTPException 400 (str e))
  | _ => raise (HTTPException 500 ("Error generating poster: " +:+ str e))
  end.

Definition generate_poster (req : PosterRequest) : M Response :=
  try_except (generate_body req) generate_except.

Definition preview_body (req : PreviewRequest) : M Response :=
  do coords <- invoke_get_coordinates (preview_city req) (preview_country req);
  do theme_data <- invoke_load_theme (preview_theme req);
  do description <- dict_get theme_data "description" "";
  ret (PreviewResponse
         {| info_city := preview_city req;
            info_country := preview_country req;
            info_latitude := fst coords;
            info_longitude := snd coords;
            info_theme_name := preview_theme req;
            info_theme_description := description |}).

(** The single [except ValueError] clause of [preview_poster]; any other
    exception leaves the handler as it is. *)
Definition preview_except (e : exn) : M Response :=
  match e with
  | ValueError _ => raise (HTTPException 400 (str e))
  | _ => raise e
  end.

Definition preview_poster (req : PreviewRequest) : M Response :=
  try_except (preview_body req) preview_except.

(** ** The boundary: [Query] declarations and replies *)

(** The query string of a request, one field per declared parameter;
    [None] is a parameter the request leaves out.  A [distance], [width]
    or [height] that is present has been read as an integer. *)
Record GenerateQuery := {
  q_city : option string;
  q_country : option string;
  q_theme : option string;
  q_distance : option Z;
  q_display_city : option string;
  q_display_country : option string;
  q_width : option Z;
  q_height : option Z;
}.

Record PreviewQuery := {
  pq_city : option string;
  pq_country : option string;
  pq_theme : option string;
}.

(** [Query(...)]: a required parameter. *)
Definition Query_required {A} (supplied : option A) : option A := supplied.

(** [Query(fallback)]: an optional parameter with a default. *)
Definition Query_default {A} (fallback : A) (supplied : option A) : option A :=
  Some (default fallback supplied).

(** [Query(fallback, ge=lo, le=hi)]: the bounds are checked on a value
    the request supplies. *)
Definition Query_bounded (fallback lo hi : Z) (supplied : option Z) : option Z :=
  match supplied with
  | None => Some fallback
  | Some v => if ((lo <=? v) && (v <=? hi))%bool then Some v else None
  end.

(** Binding of the parameters of [generate_poster]; [None] is FastAPI's
    validation error. *)
Definition bind_generate (q : GenerateQuery) : option PosterRequest :=
  city ← Query_required (q_city q);
  country ← Query_required (q_country q);
  theme ← Query_default "noir" (q_theme q);
  distance ← Query_bounded 5000 1000 20000 (q_distance q);
  display_city ← Query_default None (Some <$> q_display_city q);
  display_country ← Query_default None (Some <$> q_display_country q);
  width ← Query_bounded 12 6 24 (q_width q);
  height ← Query_bounded 16 8 32 (q_height q);
  Some {| city := city; country := country; theme := theme; distance := distance;
          display_city := display_city; display_country := display_country;
          width := width; height := height |}.

Definition bind_preview (q : PreviewQuery) : option PreviewRequest :=
  city ← Query_required (pq_city q);
  country ← Query_required (pq_country q);
  theme ← Query_default "noir" (pq_theme q);
  Some {| preview_city := city; preview_country := country; preview_theme := theme |}.

(** What the client receives. *)
Inductive Reply :=
| Success (response : Response)
| Failure (status : Z) (detail_text : string)
| ValidationError.

Definition reply_status (r : Reply) : Z :=
  match r with
  | Success _ => 200
  | Failure status _ => status
  | ValidationError => 422
  end.

(** FastAPI turns an [HTTPException] into a reply with its status and
    detail, and any other exception that leaves a handler into a plain
    500. *)
Definition respond (o : Outcome Response) : Reply :=
  match o with
  | Ok response => Success response
  | Raise (HTTPException status_code detail) => Failure status_code detail
  | Raise _ => Failure 500 "Internal Server Error"
  end.

Record Served := {
  reply : Reply;
  disk : Files;
  calls : list Event;
}.

Definition serve (m : M Response) (fs : Files) : Served :=
  let r := m fs in
  {| reply := respond (outcome r); disk := files r; calls := trace r |}.

(** [GET /generate] *)
Definition generate_endpoint (q : GenerateQuery) (fs : Files) : Served :=
  match bind_generate q with
  | Some req => serve (generate_poster req) fs
  | None => {| reply := ValidationError; disk := fs; calls := [] |}
  end.

(** A parameter declared [int], as it arrives in the query string: left
    out, a text that FastAPI reads as an integer, or any other text. *)
Inductive IntText :=
| IntOmitted
| IntValue (v : Z)
| NotAnInt (text : string).

Record RawGenerateQuery := {
  raw_city : option string;
  raw_country : option string;
  raw_theme : option string;
  raw_distance : IntText;
  raw_display_city : option string;
  raw_display_country : option string;
  raw_width : IntText;
  raw_height : IntText;
}.

Definition read_int (t : IntText) : option (option Z) :=
  match t with
  | IntOmitted => Some None
  | IntValue v => Some (Some v)
  | NotAnInt _ => None
  end.

(** The [int] annotations of [distance], [width] and [height]. *)
Definition read_generate (raw : RawGenerateQuery) : option GenerateQuery :=
  distance ← read_int (raw_distance raw);
  width ← read_int (raw_width raw);
  height ← read_int (raw_height raw);
  Some {| q_city := raw_city raw; q_country := raw_country raw; q_theme := raw_theme raw;
          q_distance := distance; q_display_city := raw_display_city raw;
          q_display_country := raw_display_country raw;
          q_width := width; q_height := height |}.

(** [GET /generate], from the query string as it arrives. *)
Definition generate_route (raw : RawGenerateQuery) (fs : Files) : Served :=
  match read_generate raw with
  | Some q => generate_endpoint q fs
  | None => {| reply := ValidationError; disk := fs; calls := [] |}
  end.

(** [GET /preview] *)
Definition preview_endpoint (q : PreviewQuery) (fs : Files) : Served :=
  match bind_preview q with
  | Some req => serve (preview_poster req) fs
  | None => {| reply := ValidationError; disk := fs; calls := [] |}
  end.

End Handlers.

Arguments generate_endpoint collab q fs : simpl never.
Arguments preview_endpoint collab q fs : simpl never.
Arguments generate_route collab raw fs : simpl never.
Arguments latin1_encodable s : simpl never.
Arguments latin1_error_message s : simpl never.

(** ** Vocabulary of the statements *)

(** The calls that reach [create_map_poster]. *)
Definition is_collaborator_call (ev : Event) : bool :=
  match ev with
  | CallLoadTheme _ | CallGetCoordinates _ _ | CallCreatePoster _ => true
  | _ => false
  end.

Definition collaborator_calls (t : list Event) : list Event :=
  List.filter is_collaborator_call t.

(** A value the request supplies that lies outside [[lo, hi]]. *)
Definition outside (lo hi : Z) (supplied : option Z) : Prop :=
  ∃ v, supplied = Some v ∧ (v < lo ∨ hi < v).

(** The value [generate_poster] gives to the [Content-Disposition] header. *)
Definition content_disposition (collab : Collaborators) (req : PosterRequest) : string :=
  "attachment; filename=" +:+ str_lower collab (city req) +:+ "_" +:+ theme req
    +:+ "_poster.png".

(** The keyword arguments [generate_poster] passes to [create_poster]. *)
Definition poster_args (req : PosterRequest) (coords : Coordinates) (output_path : string)
    : PosterArgs :=
  {| arg_city := city req;
     arg_country := country req;
     arg_point := coords;
     arg_dist := distance req;
     arg_output_file := output_path;
     arg_output_format := "png";
     arg_width := width req;
     arg_height := height req;
     arg_display_city := display_city req;
     arg_display_country := display_country req |}.

(** ** A concrete set of collaborators

    One theme ([noir]), one place the geocoder knows (Taipei, Taiwan), a
    renderer that writes four bytes to the output file, and a second
    renderer that fails after the output file exists. *)
Module Demo.

Definition noir : gmap string string :=
  <["name" := "Noir"]> {[ "description" := "Pure black background with white roads" ]}.

Definition taipei : Coordinates :=
  ({| mantissa := 3281125; exponent := -17 |}, {| mantissa := 7966910; exponent := -16 |}).

Definition themes (name : string) : Outcome ThemeData :=
  if bool_decide (name = "noir") then Ok (Some noir) else Ok None.

Definition geocoder (city country : string) : Outcome Coordinates :=
  if bool_decide (city = "Taipei" ∧ country = "Taiwan") then Ok taipei
  else Raise (ValueError ("Could not find coordinates for " +:+ city +:+ ", " +:+ country)).

Definition png : list Byte.byte := [Byte.x89; Byte.x50; Byte.x4e; Byte.x47].

Definition renderer (args : PosterArgs) (fs : Files) : Outcome unit * Files :=
  (Ok tt, <[arg_output_file args := png]> fs).

Definition broken_renderer (args : PosterArgs) (fs : Files) : Outcome unit * Files :=
  (Raise (OtherException "RuntimeError" "street network download failed"), fs).

Definition tmp (suffix : string) (fs : Files) : Outcome string :=
  Ok ("/tmp/tmpk3x9a" +:+ suffix).

(** [repr] of a text of printable characters without quote or backslash. *)
Definition quote (s : string) : string := "'" +:+ s +:+ "'".

Definition collab : Collaborators :=
  {| load_theme := themes; get_coordinates := geocoder;
     create_poster := renderer; temp_name := tmp;
     str_lower := ascii_lower; str_repr := quote |}.

Definition failing : Collaborators :=
  {| load_theme := themes; get_coordinates := geocoder;
     create_poster := broken_renderer; temp_name := tmp;
     str_lower := ascii_lower; str_repr := quote |}.

Definition request (city country theme : string) : PosterRequest :=
  {| city := city; country := country; theme := theme; distance := 5000;
     display_city := None; display_country := None; width := 12; height := 16 |}.

Definition query (city country : string) (theme : option string) : GenerateQuery :=
  {| q_city := Some city; q_country := Some country; q_theme := theme;
     q_distance := None; q_display_city := None; q_display_country := None;
     q_width := None; q_height := None |}.

End Demo.


(** ** Collaborators that misbehave

    A renderer that reports success but leaves no file behind, a theme
    store that answers with an empty [dict], a geocoder whose network
    is down, and one that knows every place. *)
Module Scenario.

Definition vanishing_renderer (args : PosterArgs) (fs : Files) : Outcome unit * Files :=
  (Ok tt, delete (arg_output_file args) fs).

Definition empty_themes (name : string) : Outcome ThemeData := Ok (Some ∅).

Definition offline_geocoder (city country : string) : Outcome Coordinates :=
  Raise (OtherException "ConnectionError" "Max retries exceeded").


(** A geocoder that resolves every place to the same point. *)
Definition worldwide_geocoder (city country : string) : Outcome Coordinates :=
  Ok Demo.taipei.

Definition vanishing : Collaborators :=
  {| load_theme := Demo.themes; get_coordinates := Demo.geocoder;
     create_poster := vanishing_renderer; temp_name := Demo.tmp;
     str_lower := ascii_lower; str_repr := Demo.quote |}.

Definition blank : Collaborators :=
  {| load_theme := empty_themes; get_coordinates := Demo.geocoder;
     create_poster := Demo.renderer; temp_name := Demo.tmp;
     str_lower := ascii_lower; str_repr := Demo.quote |}.

Definition offline : Collaborators :=
  {| load_theme := Demo.themes; get_coordinates := offline_geocoder;
     create_poster := Demo.renderer; temp_name := Demo.tmp;
     str_lower := ascii_lower; str_repr := Demo.quote |}.

Definition worldwide : Collaborators :=
  {| load_theme := Demo.themes; get_coordinates := worldwide_geocoder;
     create_poster := Demo.renderer; temp_name := Demo.tmp;
     str_lower := ascii_lower; str_repr := Demo.quote |}.


Definition preview_request (city country theme : string) : PreviewRequest :=
  {| preview_city := city; preview_country := country; preview_theme := theme |}.

End Scenario.

(** ** Running the monad *)

Lemma bind_ok {A B} (m : M A) (k : A → M B) fs a :
  outcome (m fs) = Ok a →
  bind m k fs =
    {| outcome := outcome (k a (files (m fs)));
       files := files (k a (files (m fs)));
       trace := trace (m fs) ++ trace (k a (files (m fs))) |}.
Proof.
  intros H. unfold bind. destruct (m fs) as [o fs1 t1]. cbn in *. subst o.
  by destruct (k a fs1).
Qed.

Lemma bind_raise {A B} (m : M A) (k : A → M B) fs e :
  outcome (m fs) = Raise e →
  bind m k fs = {| outcome := Raise e; files := files (m fs); trace := trace (m fs) |}.
Proof. intros H. unfold bind. destruct (m fs) as [o fs1 t1]. cbn in *. by subst o. Qed.

Lemma try_except_ok {A} (m : M A) handler fs a :
  outcome (m fs) = Ok a → try_except m handler fs = m fs.
Proof. intros H. unfold try_except. destruct (m fs) as [o fs1 t1]. cbn in *. by subst o. Qed.

Lemma try_except_raise {A} (m : M A) handler fs e :
  outcome (m fs) = Raise e →
  try_except m handler fs =
    {| outcome := outcome (handler e (files (m fs)));
       files := files (handler e (files (m fs)));
       trace := trace (m fs) ++ trace (handler e (files (m fs))) |}.
Proof.
  intros H. unfold try_except. destruct (m fs) as [o fs1 t1]. cbn in *. subst o.
  by destruct (handler e fs1).
Qed.

(** Membership, and its negation, in a trace that is written out. *)
Ltac in_trace :=
  repeat first [apply list_elem_of_here | apply list_elem_of_further].

Ltac not_in_trace :=
  let Hin := fresh "Hin" in
  intros Hin;
  repeat (apply elem_of_cons in Hin as [Hin | Hin]; [discriminate Hin |]);
  by apply elem_of_nil in Hin.

Ltac one_of_trace :=
  let ev := fresh "ev" in
  let Hin := fresh "Hin" in
  intros ev Hin;
  repeat (apply elem_of_cons in Hin as [-> | Hin]; [by auto |]);
  by apply elem_of_nil in Hin.

(** Unfolds a handler down to the results of its collaborators. *)
Ltac step_handler :=
  unfold generate_endpoint, preview_endpoint, serve,
    generate_poster, preview_poster, generate_body, preview_body,
    generate_except, preview_except, try_except, bind, dict_get,
    invoke_load_theme, invoke_get_coordinates, invoke_create_poster,
    NamedTemporaryFile, open_read, unlink, no_such_file, print,
    new_StreamingResponse, call, ret, raise in *;
  cbn [outcome files trace reply disk calls negb fst snd] in *.

(** ** Where the body of [generate_poster] can stop *)

Section GenerateBody.

Variable collab : Collaborators.
Variable req : PosterRequest.
Variable fs : Files.

Lemma body_theme_raises e :
  load_theme collab (theme req) = Raise e →
  generate_body collab req fs =
    {| outcome := Raise e; files := fs; trace := [CallLoadTheme (theme req)] |}.
Proof. intros H. step_handler. by rewrite H. Qed.

Lemma body_theme_missing theme_data :
  load_theme collab (theme req) = Ok theme_data →
  truthy theme_data = false →
  generate_body collab req fs =
    {| outcome := Raise (HTTPException 400 ("Theme '" +:+ theme req +:+ "' not found"));
       files := fs; trace := [CallLoadTheme (theme req)] |}.
Proof. intros H Hfalse. step_handler. rewrite H. cbn. by rewrite Hfalse. Qed.

Lemma body_geocoding_raises theme_data e :
  load_theme collab (theme req) = Ok theme_data →
  truthy theme_data = true →
  get_coordinates collab (city req) (country req) = Raise e →
  generate_body collab req fs =
    {| outcome := Raise e; files := fs;
       trace := [CallLoadTheme (theme req);
                 CallPrint ("Looking up coordinates for " +:+ city req +:+ ", "
                          +:+ country req +:+ "...");
                 CallGetCoordinates (city req) (country req)] |}.
Proof. intros H Htrue Hgeo. step_handler. rewrite H. cbn. rewrite Htrue. cbn. by rewrite Hgeo. Qed.

Lemma body_rendering_raises theme_data coords path e fs' :
  load_theme collab (theme req) = Ok theme_data →
  truthy theme_data = true →
  get_coordinates collab (city req) (country req) = Ok coords →
  temp_name collab ".png" fs = Ok path →
  create_poster collab (poster_args req coords path) (<[path := []]> fs) = (Raise e, fs') →
  generate_body collab req fs =
    {| outcome := Raise e; files := fs';
       trace := [CallLoadTheme (theme req);
                 CallPrint ("Looking up coordinates for " +:+ city req +:+ ", "
                          +:+ country req +:+ "...");
                 CallGetCoordinates (city req) (country req);
                 CallNamedTemporaryFile ".png";
                 CallCreatePoster (poster_args req coords path)] |}.
Proof.
  intros H Htrue Hgeo Htmp Hrender. unfold poster_args in Hrender. step_handler.
  rewrite H. cbn. rewrite Htrue. cbn. rewrite Hgeo. cbn. rewrite Htmp. cbn.
  by rewrite Hrender.
Qed.

Lemma body_read_raises theme_data coords path fs' :
  load_theme collab (theme req) = Ok theme_data →
  truthy theme_data = true →
  get_coordinates collab (city req) (country req) = Ok coords →
  temp_name collab ".png" fs = Ok path →
  create_poster collab (poster_args req coords path) (<[path := []]> fs) = (Ok tt, fs') →
  fs' !! path = None →
  outcome (generate_body collab req fs) = Raise (no_such_file collab path).
Proof.
  intros H Htrue Hgeo Htmp Hrender Hgone. unfold poster_args in Hrender. step_handler.
  rewrite H. cbn. rewrite Htrue. cbn. rewrite Hgeo. cbn. rewrite Htmp. cbn.
  rewrite Hrender. cbn. by rewrite Hgone.
Qed.

Lemma body_succeeds theme_data coords path fs' image_data :
  load_theme collab (theme req) = Ok theme_data →
  truthy theme_data = true →
  get_coordinates collab (city req) (country req) = Ok coords →
  temp_name collab ".png" fs = Ok path →
  create_poster collab (poster_args req coords path) (<[path := []]> fs) = (Ok tt, fs') →
  fs' !! path = Some image_data →
  generate_body collab req fs =
    {| outcome :=
         if latin1_encodable (content_disposition collab req)
         then Ok (StreamingResponse image_data "image/png"
                    [("Content-Disposition", content_disposition collab req)])
         else Raise (ValueError (latin1_error_message (content_disposition collab req)));
       files := delete path fs';
       trace := [CallLoadTheme (theme req);
                 CallPrint ("Looking up coordinates for " +:+ city req +:+ ", "
                          +:+ country req +:+ "...");
                 CallGetCoordinates (city req) (country req);
                 CallNamedTemporaryFile ".png";
                 CallCreatePoster (poster_args req coords path);
                 CallOpenRead path;
                 CallUnlink path] |}.
Proof.
  intros H Htrue Hgeo Htmp Hrender Hread. unfold poster_args in Hrender. step_handler.
  rewrite H. cbn. rewrite Htrue. cbn. rewrite Hgeo. cbn. rewrite Htmp. cbn.
  rewrite Hrender. cbn. rewrite !Hread. cbn. unfold content_disposition.
  by destruct (latin1_encodable _).
Qed.

End GenerateBody.

(** The two [except] clauses of [generate_poster], seen from the client. *)
Lemma generate_reports collab req fs e :
  outcome (generate_body collab req fs) = Raise e →
  reply (serve (generate_poster collab req) fs) =
    match e with
    | ValueError message => Failure 400 message
    | _ => Failure 500 ("Error generating poster: " +:+ str e)
    end.
Proof.
  intros Hraised. unfold serve, generate_poster.
  rewrite (try_except_raise _ _ _ _ Hraised). by destruct e.
Qed.

(** ** Theme lookup in [/generate] *)

(** C1 (the code departs from it): when [load_theme] returns nothing
    truthy, [generate_poster] raises its 400 inside the [try] block, the
    [except Exception] clause catches that [HTTPException], and the
    request is answered with status 500; the theme name survives only
    inside the wrapped detail text. *)
Theorem generate_unknown_theme_answers_500 collab req fs theme_data
    (Hload : load_theme collab (theme req) = Ok theme_data)
    (Hmissing : truthy theme_data = false) :
  reply (serve (generate_poster collab req) fs) =
    Failure 500 ("Error generating poster: 400: Theme '" +:+ theme req +:+ "' not found").
Proof.
  unfold serve, generate_poster.
  rewrite (try_except_raise _ _ _ _
             (f_equal outcome (body_theme_missing collab req fs _ Hload Hmissing))).
  reflexivity.
Qed.

Lemma generate_unknown_theme_answers_500_witness :
  reply (generate_endpoint Demo.collab
           (Demo.query "Taipei" "Taiwan" (Some "doesnotexist")) ∅) =
    Failure 500 "Error generating poster: 400: Theme 'doesnotexist' not found".
Proof.
  exact (generate_unknown_theme_answers_500 Demo.collab
           (Demo.request "Taipei" "Taiwan" "doesnotexist") ∅ None eq_refl eq_refl).
Defined.

(** ** Exceptions leaving the body of [/generate] *)

(** C10: whatever exception stops the [try] block of [generate_poster],
    a [ValueError] is answered with status 400 and its message as the
    detail, and any other exception with status 500 and the detail
    ["Error generating poster: "] followed by [str(e)]. *)
Theorem generate_exception_mapping collab req fs e
    (Hraised : outcome (generate_body collab req fs) = Raise e) :
  reply (serve (generate_poster collab req) fs) =
    match e with
    | ValueError message => Failure 400 message
    | _ => Failure 500 ("Error generating poster: " +:+ str e)
    end.
Proof. by apply generate_reports. Qed.

Lemma generate_exception_mapping_witness :
  reply (serve (generate_poster Demo.failing (Demo.request "Taipei" "Taiwan" "noir")) ∅) =
    Failure 500 "Error generating poster: street network download failed".
Proof.
  exact (generate_exception_mapping Demo.failing (Demo.request "Taipei" "Taiwan" "noir") ∅
           (OtherException "RuntimeError" "street network download failed") eq_refl).
Defined.

(** ** Place resolution *)

(** C4: when [get_coordinates] raises a [ValueError] for the place, a
    [/generate] request that reaches the geocoder and every [/preview]
    request for that place are answered with status 400 and the
    geocoder's message as the detail. *)
Theorem unresolved_place_is_client_error collab place_city place_country message
    (Hgeo : get_coordinates collab place_city place_country = Raise (ValueError message)) :
  (∀ req fs,
     city req = place_city → country req = place_country →
     CallGetCoordinates place_city place_country ∈ trace (generate_poster collab req fs) →
     reply (serve (generate_poster collab req) fs) = Failure 400 message) ∧
  (∀ req fs,
     preview_city req = place_city → preview_country req = place_country →
     reply (serve (preview_poster collab req) fs) = Failure 400 message).
Proof.
  split.
  - intros req fs <- <- Hcalled.
    destruct (load_theme collab (theme req)) as [theme_data|e] eqn:Hload.
    + destruct (truthy theme_data) eqn:Htruthy.
      * pose proof (body_geocoding_raises collab req fs _ _ Hload Htruthy Hgeo) as Hbody.
        apply (generate_reports collab req fs (ValueError message)).
        by rewrite Hbody.
      * pose proof (body_theme_missing collab req fs _ Hload Htruthy) as Hbody.
        unfold generate_poster in Hcalled.
        rewrite (try_except_raise _ _ _ _ (f_equal outcome Hbody)), Hbody in Hcalled.
        cbn in Hcalled. exfalso. revert Hcalled. not_in_trace.
    + pose proof (body_theme_raises collab req fs _ Hload) as Hbody.
      unfold generate_poster in Hcalled.
      rewrite (try_except_raise _ _ _ _ (f_equal outcome Hbody)), Hbody in Hcalled.
      exfalso. revert Hcalled. destruct e; cbn; not_in_trace.
  - intros req fs <- <-. step_handler. by rewrite Hgeo.
Qed.

Lemma unresolved_place_is_client_error_witness :
  reply (serve (generate_poster Demo.collab (Demo.request "Nowhere123" "Nowhere" "noir")) ∅) =
    Failure 400 "Could not find coordinates for Nowhere123, Nowhere" ∧
  reply (serve (preview_poster Demo.collab
                  {| preview_city := "Nowhere123"; preview_country := "Nowhere";
                     preview_theme := "noir" |}) ∅) =
    Failure 400 "Could not find coordinates for Nowhere123, Nowhere".
Proof.
  destruct (unresolved_place_is_client_error Demo.collab "Nowhere123" "Nowhere" _ eq_refl)
    as [Hgenerate Hpreview].
  split.
  - apply Hgenerate; [reflexivity | reflexivity |].
    vm_compute. apply list_elem_of_further, list_elem_of_further, list_elem_of_here.
  - apply Hpreview; reflexivity.
Defined.

(** ** The temporary file of [/generate] *)

(** When every step succeeds the file is unlinked before the response is
    built. *)
Lemma generate_success_deletes_artifact collab req fs theme_data coords path fs' image_data :
  load_theme collab (theme req) = Ok theme_data →
  truthy theme_data = true →
  get_coordinates collab (city req) (country req) = Ok coords →
  temp_name collab ".png" fs = Ok path →
  create_poster collab (poster_args req coords path) (<[path := []]> fs) = (Ok tt, fs') →
  fs' !! path = Some image_data →
  disk (serve (generate_poster collab req) fs) !! path = None.
Proof.
  intros Hload Htruthy Hgeo Htmp Hrender Hread.
  pose proof (body_succeeds collab req fs _ _ _ _ _ Hload Htruthy Hgeo Htmp Hrender Hread)
    as Hbody.
  unfold serve, generate_poster, try_except. rewrite Hbody.
  destruct (latin1_encodable _); cbn; apply lookup_delete_eq.
Qed.

(** C2 (the code departs from it): [os.unlink] is the last statement of
    the [try] block and there is no [finally]; when [create_poster]
    raises after the temporary file was created, the handler answers
    with an error, never calls [os.unlink], and the file is still on
    disk when it returns. *)
Theorem generate_keeps_artifact_when_rendering_fails
    collab req fs theme_data coords path e fs'
    (Hload : load_theme collab (theme req) = Ok theme_data)
    (Htruthy : truthy theme_data = true)
    (Hgeo : get_coordinates collab (city req) (country req) = Ok coords)
    (Htmp : temp_name collab ".png" fs = Ok path)
    (Hrender : create_poster collab (poster_args req coords path) (<[path := []]> fs)
               = (Raise e, fs'))
    (Hstill : is_Some (fs' !! path)) :
  (CallNamedTemporaryFile ".png" ∈ calls (serve (generate_poster collab req) fs)) ∧
  (CallUnlink path ∉ calls (serve (generate_poster collab req) fs)) ∧
  is_Some (disk (serve (generate_poster collab req) fs) !! path).
Proof.
  pose proof (body_rendering_raises collab req fs _ _ _ _ _ Hload Htruthy Hgeo Htmp Hrender)
    as Hbody.
  unfold serve, generate_poster.
  rewrite (try_except_raise _ _ _ _ (f_equal outcome Hbody)), Hbody.
  destruct e; cbn; (split; [in_trace | split; [not_in_trace | done]]).
Qed.

Lemma generate_keeps_artifact_when_rendering_fails_witness :
  (CallNamedTemporaryFile ".png" ∈
     calls (serve (generate_poster Demo.failing (Demo.request "Taipei" "Taiwan" "noir")) ∅)) ∧
  (CallUnlink "/tmp/tmpk3x9a.png" ∉
     calls (serve (generate_poster Demo.failing (Demo.request "Taipei" "Taiwan" "noir")) ∅)) ∧
  is_Some (disk (serve (generate_poster Demo.failing
                          (Demo.request "Taipei" "Taiwan" "noir")) ∅)
             !! "/tmp/tmpk3x9a.png").
Proof.
  apply (generate_keeps_artifact_when_rendering_fails Demo.failing
           (Demo.request "Taipei" "Taiwan" "noir") ∅ (Some Demo.noir) Demo.taipei
           "/tmp/tmpk3x9a.png" (OtherException "RuntimeError" "street network download failed")
           (<["/tmp/tmpk3x9a.png" := []]> ∅));
    [reflexivity | reflexivity | reflexivity | reflexivity | reflexivity |].
  exists []. reflexivity.
Defined.

(** ** Theme lookup in [/preview] *)

(** A theme store that answers with an empty [dict] makes [/preview]
    succeed with an empty description. *)
Lemma preview_empty_theme_succeeds collab req fs coords :
  get_coordinates collab (preview_city req) (preview_country req) = Ok coords →
  load_theme collab (preview_theme req) = Ok (Some ∅) →
  reply_status (reply (serve (preview_poster collab req) fs)) = 200.
Proof. intros Hgeo Hload. step_handler. rewrite Hgeo. cbn. by rewrite Hload. Qed.

(** C3 (the code departs from it): [preview_poster] never tests
    [theme_data]; when [load_theme] returns [None] the call
    [theme_data.get] raises an [AttributeError], which the single
    [except ValueError] clause lets through, and the request is answered
    with a plain status 500 that does not mention the theme. *)
Theorem preview_unknown_theme_answers_500 collab req fs coords
    (Hgeo : get_coordinates collab (preview_city req) (preview_country req) = Ok coords)
    (Hload : load_theme collab (preview_theme req) = Ok None) :
  outcome (preview_poster collab req fs) =
    Raise (OtherException "AttributeError" "'NoneType' object has no attribute 'get'") ∧
  reply (serve (preview_poster collab req) fs) = Failure 500 "Internal Server Error".
Proof. step_handler. rewrite Hgeo. cbn. by rewrite Hload. Qed.

Lemma preview_unknown_theme_answers_500_witness :
  reply (serve (preview_poster Demo.collab
                  {| preview_city := "Taipei"; preview_country := "Taiwan";
                     preview_theme := "doesnotexist" |}) ∅) =
    Failure 500 "Internal Server Error".
Proof.
  exact (proj2 (preview_unknown_theme_answers_500 Demo.collab
                  {| preview_city := "Taipei"; preview_country := "Taiwan";
                     preview_theme := "doesnotexist" |} ∅ Demo.taipei eq_refl eq_refl)).
Defined.

(** ** After the four steps of [/generate] *)

(** C5 (the code departs from it): when theme lookup, geocoding,
    rendering and the read-back all succeed, the [StreamingResponse] is
    still built inside the [try] block.  If the header value
    [attachment; filename=<city.lower()>_<theme>_poster.png] can be
    encoded as latin-1, the response carries the bytes read from the
    rendered file, the media type [image/png] and that header.  If it
    cannot (a city or theme outside latin-1), the constructor raises a
    [UnicodeEncodeError], the [except ValueError] clause catches it, and
    the rendered poster is discarded for a status 400 with the codec's
    message. *)
Theorem generate_success_response collab req fs theme_data coords path fs' image_data
    (Hload : load_theme collab (theme req) = Ok theme_data)
    (Htruthy : truthy theme_data = true)
    (Hgeo : get_coordinates collab (city req) (country req) = Ok coords)
    (Htmp : temp_name collab ".png" fs = Ok path)
    (Hrender : create_poster collab (poster_args req coords path) (<[path := []]> fs)
               = (Ok tt, fs'))
    (Hread : fs' !! path = Some image_data) :
  reply (serve (generate_poster collab req) fs) =
    if latin1_encodable ("attachment; filename=" +:+ str_lower collab (city req) +:+ "_"
                           +:+ theme req +:+ "_poster.png")
    then Success (StreamingResponse image_data "image/png"
                    [("Content-Disposition",
                      "attachment; filename=" +:+ str_lower collab (city req) +:+ "_"
                        +:+ theme req +:+ "_poster.png")])
    else Failure 400 (latin1_error_message
                        ("attachment; filename=" +:+ str_lower collab (city req) +:+ "_"
                           +:+ theme req +:+ "_poster.png")).
Proof.
  pose proof (body_succeeds collab req fs _ _ _ _ _ Hload Htruthy Hgeo Htmp Hrender Hread)
    as Hbody.
  unfold serve, generate_poster, try_except. rewrite Hbody.
  unfold content_disposition. by destruct (latin1_encodable _).
Qed.

Lemma generate_success_response_witness :
  reply (serve (generate_poster Scenario.worldwide (Demo.request "台北" "台灣" "noir")) ∅) =
    Failure 400
      "'latin-1' codec can't encode characters in position 21-22: ordinal not in range(256)".
Proof.
  exact (generate_success_response Scenario.worldwide (Demo.request "台北" "台灣" "noir") ∅
           (Some Demo.noir) Demo.taipei "/tmp/tmpk3x9a.png"
           (<["/tmp/tmpk3x9a.png" := Demo.png]> (<["/tmp/tmpk3x9a.png" := []]> ∅)) Demo.png
           eq_refl eq_refl eq_refl eq_refl eq_refl eq_refl).
Defined.

(** The same run for a city the header can carry. *)
Example generate_taipei_noir :
  reply (generate_endpoint Demo.collab (Demo.query "Taipei" "Taiwan" None) ∅) =
    Success (StreamingResponse Demo.png "image/png"
               [("Content-Disposition", "attachment; filename=taipei_noir_poster.png")]).
Proof. reflexivity. Qed.

(** ** Parameter binding *)

Lemma Query_bounded_outside fallback lo hi supplied :
  outside lo hi supplied → Query_bounded fallback lo hi supplied = None.
Proof.
  intros (v & -> & Hv). unfold Query_bounded.
  destruct (lo <=? v) eqn:Hlo; [|done].
  destruct (v <=? hi) eqn:Hhi; [|done]. lia.
Qed.

Lemma bind_generate_outside q :
  outside 1000 20000 (q_distance q) ∨ outside 6 24 (q_width q) ∨ outside 8 32 (q_height q) →
  bind_generate q = None.
Proof.
  intros Hout. unfold bind_generate, Query_required, Query_default.
  destruct (q_city q); [|done]. destruct (q_country q); [|done]. cbn.
  destruct Hout as [Hd | [Hw | Hh]].
  - by rewrite (Query_bounded_outside _ _ _ _ Hd).
  - destruct (Query_bounded 5000 1000 20000 (q_distance q)); [|done]. cbn.
    by rewrite (Query_bounded_outside _ _ _ _ Hw).
  - destruct (Query_bounded 5000 1000 20000 (q_distance q)); [|done]. cbn.
    destruct (Query_bounded 12 6 24 (q_width q)); [|done]. cbn.
    by rewrite (Query_bounded_outside _ _ _ _ Hh).
Qed.

(** C6: a [/generate] request whose [distance] is outside [1000, 20000],
    or whose [width] is outside [6, 24], or whose [height] is outside
    [8, 32], is answered with a validation error by the parameter
    binding; the handler does not run, no collaborator is called and the
    disk is as it was. *)
Theorem out_of_range_rejected_before_handler collab q fs
    (Hout : outside 1000 20000 (q_distance q) ∨ outside 6 24 (q_width q)
            ∨ outside 8 32 (q_height q)) :
  generate_endpoint collab q fs = {| reply := ValidationError; disk := fs; calls := [] |}.
Proof. unfold generate_endpoint. by rewrite (bind_generate_outside q Hout). Qed.

Lemma out_of_range_rejected_before_handler_witness :
  generate_endpoint Demo.collab
    {| q_city := Some "Taipei"; q_country := Some "Taiwan"; q_theme := None;
       q_distance := Some 20001; q_display_city := None; q_display_country := None;
       q_width := None; q_height := None |} ∅
  = {| reply := ValidationError; disk := ∅; calls := [] |}.
Proof.
  apply out_of_range_rejected_before_handler.
  left. exists 20001. split; [reflexivity | right; lia].
Defined.



(** ** The successful [/preview] *)

(** [preview_poster] has no statement that touches the disk. *)
Lemma preview_leaves_disk_alone collab req fs :
  files (preview_poster collab req fs) = fs ∧
  ∀ ev, ev ∈ trace (preview_poster collab req fs) →
        ev = CallGetCoordinates (preview_city req) (preview_country req)
        ∨ ev = CallLoadTheme (preview_theme req).
Proof.
  step_handler.
  destruct (get_coordinates collab _ _) as [coords|e]; cbn.
  - destruct (load_theme collab _) as [[d|]|e]; cbn;
      try destruct e; cbn; (split; [done | one_of_trace]).
  - destruct e; cbn; (split; [done | one_of_trace]).
Qed.

(** C7: when geocoding and theme lookup succeed, [/preview] returns the
    record made of the request's city, country and theme name, the two
    components of the geocoder's pair as latitude and longitude, and the
    descriptor's ["description"] entry (the empty string when it has
    none); the only calls made are the two lookups, and the disk is as
    it was, so no temporary file is created. *)
Theorem preview_success_response collab req fs coords descriptor
    (Hgeo : get_coordinates collab (preview_city req) (preview_country req) = Ok coords)
    (Hload : load_theme collab (preview_theme req) = Ok (Some descriptor)) :
  preview_poster collab req fs =
    {| outcome :=
         Ok (PreviewResponse
               {| info_city := preview_city req;
                  info_country := preview_country req;
                  info_latitude := fst coords;
                  info_longitude := snd coords;
                  info_theme_name := preview_theme req;
                  info_theme_description := default "" (descriptor !! "description") |});
       files := fs;
       trace := [CallGetCoordinates (preview_city req) (preview_country req);
                 CallLoadTheme (preview_theme req)] |}.
Proof. step_handler. rewrite Hgeo. cbn. by rewrite Hload. Qed.

Lemma preview_success_response_witness :
  preview_poster Demo.collab
    {| preview_city := "Taipei"; preview_country := "Taiwan"; preview_theme := "noir" |} ∅ =
    {| outcome :=
         Ok (PreviewResponse
               {| info_city := "Taipei";
                  info_country := "Taiwan";
                  info_latitude := {| mantissa := 3281125; exponent := -17 |};
                  info_longitude := {| mantissa := 7966910; exponent := -16 |};
                  info_theme_name := "noir";
                  info_theme_description := "Pure black background with white roads" |});
       files := ∅;
       trace := [CallGetCoordinates "Taipei" "Taiwan"; CallLoadTheme "noir"] |}.
Proof.
  exact (preview_success_response Demo.collab
           {| preview_city := "Taipei"; preview_country := "Taiwan"; preview_theme := "noir" |}
           ∅ Demo.taipei Demo.noir eq_refl eq_refl).
Defined.

(** ** Order of the steps of [/generate] *)

(** The calls to [create_map_poster] made by one run, in order: the
    theme lookup; then, if the handler goes on, the geocoder; then, if
    it still goes on, the renderer with the geocoder's coordinates. *)
Lemma generate_calls_shape collab req fs :
  collaborator_calls (trace (generate_poster collab req fs)) = [CallLoadTheme (theme req)]
  ∨ (∃ theme_data,
       load_theme collab (theme req) = Ok theme_data ∧ truthy theme_data = true ∧
       collaborator_calls (trace (generate_poster collab req fs)) =
         [CallLoadTheme (theme req); CallGetCoordinates (city req) (country req)])
  ∨ (∃ theme_data coords path,
       load_theme collab (theme req) = Ok theme_data ∧ truthy theme_data = true ∧
       get_coordinates collab (city req) (country req) = Ok coords ∧
       collaborator_calls (trace (generate_poster collab req fs)) =
         [CallLoadTheme (theme req); CallGetCoordinates (city req) (country req);
          CallCreatePoster (poster_args req coords path)]).
Proof.
  destruct (load_theme collab (theme req)) as [theme_data|e] eqn:Hload.
  2: { left. step_handler. rewrite Hload. by destruct e. }
  destruct (truthy theme_data) eqn:Htruthy.
  2: { left. step_handler. rewrite Hload. cbn. by rewrite Htruthy. }
  destruct (get_coordinates collab (city req) (country req)) as [coords|e] eqn:Hgeo.
  2: { right. left. exists theme_data. split; [done | split; [done |]].
       step_handler. rewrite Hload. cbn. rewrite Htruthy. cbn. rewrite Hgeo. by destruct e. }
  destruct (temp_name collab ".png" fs) as [path|e] eqn:Htmp.
  2: { right. left. exists theme_data. split; [done | split; [done |]].
       step_handler. rewrite Hload. cbn. rewrite Htruthy. cbn. rewrite Hgeo. cbn.
       rewrite Htmp. by destruct e. }
  right. right. exists theme_data, coords, path. split; [done | split; [done | split; [done |]]].
  unfold poster_args. step_handler.
  rewrite Hload. cbn. rewrite Htruthy. cbn. rewrite Hgeo. cbn. rewrite Htmp. cbn.
  destruct (create_poster collab _ _) as [[[]|e] fs']; cbn.
  - destruct (fs' !! path); cbn; [by destruct (latin1_encodable _) | done].
  - by destruct e.
Qed.

(** What a run that reaches the renderer calls, and what it leaves on
    disk: the renderer works on the disk that holds the new, empty
    temporary file, and the handler unlinks that file only after a
    successful read-back. *)
Lemma generate_rendering_run collab req fs theme_data coords path result fs' :
  load_theme collab (theme req) = Ok theme_data →
  truthy theme_data = true →
  get_coordinates collab (city req) (country req) = Ok coords →
  temp_name collab ".png" fs = Ok path →
  create_poster collab (poster_args req coords path) (<[path := []]> fs) = (result, fs') →
  collaborator_calls (trace (generate_poster collab req fs)) =
    [CallLoadTheme (theme req); CallGetCoordinates (city req) (country req);
     CallCreatePoster (poster_args req coords path)] ∧
  files (generate_poster collab req fs) =
    match result, fs' !! path with
    | Ok _, Some _ => delete path fs'
    | _, _ => fs'
    end.
Proof.
  intros Hload Htruthy Hgeo Htmp Hrender. unfold poster_args in *. step_handler.
  rewrite Hload. cbn. rewrite Htruthy. cbn. rewrite Hgeo. cbn. rewrite Htmp. cbn.
  rewrite Hrender. cbn. destruct result as [[]|e]; cbn.
  - destruct (fs' !! path); cbn; [by destruct (latin1_encodable _) | done].
  - by destruct e.
Qed.

(** C8: [generate_poster] calls the theme lookup first, then the
    geocoder, then the renderer.  With an unknown theme, or a theme
    lookup that raises, the theme lookup is the only call.  With a known
    theme the geocoder is called next; when it raises, or when the
    temporary file cannot be created, the renderer is not called.  When
    theme lookup, geocoding and the creation of the temporary file all
    succeed, the renderer is called third, with the request's fields,
    the geocoder's coordinates and the temporary file, on the disk that
    holds that file, and what it leaves on disk is what the handler
    leaves, less the temporary file once it has been read back. *)
Theorem generate_steps_in_order collab req fs :
  (collaborator_calls (trace (generate_poster collab req fs)) = [CallLoadTheme (theme req)]
   ∨ collaborator_calls (trace (generate_poster collab req fs)) =
       [CallLoadTheme (theme req); CallGetCoordinates (city req) (country req)]
   ∨ ∃ args,
       collaborator_calls (trace (generate_poster collab req fs)) =
         [CallLoadTheme (theme req); CallGetCoordinates (city req) (country req);
          CallCreatePoster args]) ∧
  (∀ theme_data,
     load_theme collab (theme req) = Ok theme_data → truthy theme_data = false →
     collaborator_calls (trace (generate_poster collab req fs)) = [CallLoadTheme (theme req)]) ∧
  (∀ e args,
     get_coordinates collab (city req) (country req) = Raise e →
     CallCreatePoster args ∉ collaborator_calls (trace (generate_poster collab req fs))) ∧
  (∀ e,
     load_theme collab (theme req) = Raise e →
     collaborator_calls (trace (generate_poster collab req fs)) = [CallLoadTheme (theme req)]) ∧
  (∀ theme_data e,
     load_theme collab (theme req) = Ok theme_data → truthy theme_data = true →
     get_coordinates collab (city req) (country req) = Raise e →
     collaborator_calls (trace (generate_poster collab req fs)) =
       [CallLoadTheme (theme req); CallGetCoordinates (city req) (country req)]) ∧
  (∀ theme_data coords e,
     load_theme collab (theme req) = Ok theme_data → truthy theme_data = true →
     get_coordinates collab (city req) (country req) = Ok coords →
     temp_name collab ".png" fs = Raise e →
     collaborator_calls (trace (generate_poster collab req fs)) =
       [CallLoadTheme (theme req); CallGetCoordinates (city req) (country req)]) ∧
  (∀ theme_data coords path result fs',
     load_theme collab (theme req) = Ok theme_data → truthy theme_data = true →
     get_coordinates collab (city req) (country req) = Ok coords →
     temp_name collab ".png" fs = Ok path →
     create_poster collab (poster_args req coords path) (<[path := []]> fs) = (result, fs') →
     collaborator_calls (trace (generate_poster collab req fs)) =
       [CallLoadTheme (theme req); CallGetCoordinates (city req) (country req);
        CallCreatePoster (poster_args req coords path)] ∧
     files (generate_poster collab req fs) =
       match result, fs' !! path with
       | Ok _, Some _ => delete path fs'
       | _, _ => fs'
       end).
Proof.
  pose proof (generate_calls_shape collab req fs) as Hshape.
  split; [|split; [|split; [|split; [|split; [|split]]]]].
  - destruct Hshape as [H | [(? & _ & _ & H) | (? & ? & ? & _ & _ & _ & H)]]; eauto.
  - intros theme_data Hload Hfalse.
    destruct Hshape as [H | [(? & Hl & Ht & _) | (? & ? & ? & Hl & Ht & _)]];
      [done | congruence | congruence].
  - intros e args Hgeo.
    destruct Hshape as [H | [(? & _ & _ & H) | (? & ? & ? & _ & _ & Hg & _)]];
      [rewrite H; not_in_trace | rewrite H; not_in_trace | congruence].
  - intros e Hload. step_handler. rewrite Hload. by destruct e.
  - intros theme_data e Hload Htruthy Hgeo. step_handler.
    rewrite Hload. cbn. rewrite Htruthy. cbn. rewrite Hgeo. by destruct e.
  - intros theme_data coords e Hload Htruthy Hgeo Htmp. step_handler.
    rewrite Hload. cbn. rewrite Htruthy. cbn. rewrite Hgeo. cbn. rewrite Htmp.
    by destruct e.
  - intros theme_data coords path result fs'. apply generate_rendering_run.
Qed.

Lemma generate_steps_in_order_witness :
  collaborator_calls
    (trace (generate_poster Demo.collab (Demo.request "Taipei" "Taiwan" "doesnotexist") ∅))
  = [CallLoadTheme "doesnotexist"] ∧
  collaborator_calls
    (trace (generate_poster Demo.collab (Demo.request "Nowhere123" "Nowhere" "noir") ∅))
  = [CallLoadTheme "noir"; CallGetCoordinates "Nowhere123" "Nowhere"] ∧
  collaborator_calls
    (trace (generate_poster Demo.failing (Demo.request "Taipei" "Taiwan" "noir") ∅))
  = [CallLoadTheme "noir"; CallGetCoordinates "Taipei" "Taiwan";
     CallCreatePoster
       (poster_args (Demo.request "Taipei" "Taiwan" "noir") Demo.taipei "/tmp/tmpk3x9a.png")] ∧
  files (generate_poster Demo.failing (Demo.request "Taipei" "Taiwan" "noir") ∅)
  = {[ "/tmp/tmpk3x9a.png" := [] ]}.
Proof.
  destruct (generate_steps_in_order Demo.collab
              (Demo.request "Taipei" "Taiwan" "doesnotexist") ∅)
    as (_ & Hunknown & _).
  destruct (generate_steps_in_order Demo.collab
              (Demo.request "Nowhere123" "Nowhere" "noir") ∅)
    as (_ & _ & _ & _ & Hplace & _).
  destruct (generate_steps_in_order Demo.failing
              (Demo.request "Taipei" "Taiwan" "noir") ∅)
    as (_ & _ & _ & _ & _ & _ & Hrendered).
  split; [exact (Hunknown None eq_refl eq_refl) |].
  split; [exact (Hplace (Some Demo.noir) _ eq_refl eq_refl eq_refl) |].
  exact (Hrendered (Some Demo.noir) Demo.taipei "/tmp/tmpk3x9a.png"
           (Raise (OtherException "RuntimeError" "street network download failed"))
           (<["/tmp/tmpk3x9a.png" := []]> ∅) eq_refl eq_refl eq_refl eq_refl eq_refl).
Defined.

(** * Further properties of the handlers *)

(** ** What the parameter binding lets through *)

Lemma Query_bounded_None fallback lo hi supplied :
  Query_bounded fallback lo hi supplied = None ↔ outside lo hi supplied.
Proof.
  split; [|apply Query_bounded_outside].
  unfold Query_bounded, outside. destruct supplied as [v|]; [|done].
  destruct (lo <=? v) eqn:Hlo; destruct (v <=? hi) eqn:Hhi; cbn; try done;
    intros _; exists v; (split; [done | lia]).
Qed.

Lemma Query_bounded_Some fallback lo hi supplied v :
  Query_bounded fallback lo hi supplied = Some v →
  lo ≤ fallback ≤ hi →
  lo ≤ v ≤ hi ∧ (supplied = None ∧ v = fallback ∨ supplied = Some v).
Proof.
  unfold Query_bounded. destruct supplied as [w|].
  - destruct (lo <=? w) eqn:Hlo; destruct (w <=? hi) eqn:Hhi; cbn; try done.
    intros [= ->] _. split; [lia | by right].
  - intros [= <-] Hfallback. split; [done | by left].
Qed.

Lemma bind_generate_bounds q req :
  bind_generate q = Some req →
  1000 ≤ distance req ≤ 20000 ∧ 6 ≤ width req ≤ 24 ∧ 8 ≤ height req ≤ 32.
Proof.
  intros Haccepted.
  unfold bind_generate, Query_required, Query_default in Haccepted.
  destruct (q_city q); [|done]. destruct (q_country q); [|done]. cbn in Haccepted.
  destruct (Query_bounded 5000 1000 20000 _) as [d|] eqn:Hd; [|done]. cbn in Haccepted.
  destruct (Query_bounded 12 6 24 _) as [w|] eqn:Hw; [|done]. cbn in Haccepted.
  destruct (Query_bounded 16 8 32 _) as [h|] eqn:Hh; [|done]. cbn in Haccepted.
  injection Haccepted as <-. cbn.
  apply Query_bounded_Some in Hd as [? _]; [|lia].
  apply Query_bounded_Some in Hw as [? _]; [|lia].
  apply Query_bounded_Some in Hh as [? _]; [|lia].
  done.
Qed.

(** Every request that reaches [generate_poster] has its [distance],
    [width] and [height] inside the declared bounds, whether the values
    were supplied or defaulted. *)
Theorem accepted_request_within_bounds q req
    (Haccepted : bind_generate q = Some req) :
  1000 ≤ distance req ≤ 20000 ∧ 6 ≤ width req ≤ 24 ∧ 8 ≤ height req ≤ 32.
Proof. exact (bind_generate_bounds q req Haccepted). Qed.

Lemma accepted_request_within_bounds_witness :
  1000 ≤ 20000 ≤ 20000 ∧ 6 ≤ 6 ≤ 24 ∧ 8 ≤ 16 ≤ 32.
Proof.
  exact (accepted_request_within_bounds
           {| q_city := Some "Taipei"; q_country := Some "Taiwan"; q_theme := None;
              q_distance := Some 20000; q_display_city := None; q_display_country := None;
              q_width := Some 6; q_height := None |}
           {| city := "Taipei"; country := "Taiwan"; theme := "noir"; distance := 20000;
              display_city := None; display_country := None; width := 6; height := 16 |}
           eq_refl).
Defined.

Lemma bind_generate_None q :
  bind_generate q = None ↔
    q_city q = None ∨ q_country q = None ∨ outside 1000 20000 (q_distance q)
    ∨ outside 6 24 (q_width q) ∨ outside 8 32 (q_height q).
Proof.
  split.
  - unfold bind_generate, Query_required, Query_default.
    destruct (q_city q); [|by left]. destruct (q_country q); [|by right; left]. cbn.
    destruct (Query_bounded 5000 1000 20000 _) eqn:Hd;
      [|intros _; right; right; left; by apply Query_bounded_None in Hd]. cbn.
    destruct (Query_bounded 12 6 24 _) eqn:Hw;
      [|intros _; right; right; right; left; by apply Query_bounded_None in Hw]. cbn.
    destruct (Query_bounded 16 8 32 _) eqn:Hh;
      [|intros _; right; right; right; right; by apply Query_bounded_None in Hh]. done.
  - intros [Hc | [Hk | Hout]].
    + unfold bind_generate, Query_required. by rewrite Hc.
    + unfold bind_generate, Query_required. rewrite Hk. by destruct (q_city q).
    + by apply bind_generate_outside.
Qed.

Lemma generate_endpoint_validation_error collab q fs :
  reply (generate_endpoint collab q fs) = ValidationError ↔
    q_city q = None ∨ q_country q = None ∨ outside 1000 20000 (q_distance q)
    ∨ outside 6 24 (q_width q) ∨ outside 8 32 (q_height q).
Proof.
  rewrite <- bind_generate_None. unfold generate_endpoint.
  destruct (bind_generate q) as [req|]; [|done].
  unfold serve. cbn. split; [|done].
  destruct (outcome (generate_poster collab req fs)) as [r|[]]; done.
Qed.

(** [/generate] answers with a validation error exactly when [city] or
    [country] is missing, or a supplied [distance], [width] or [height]
    is not an integer, or is an integer out of bounds; the handler
    itself never produces that answer. *)
Theorem generate_validation_error_iff collab raw fs :
  reply (generate_route collab raw fs) = ValidationError ↔
    raw_city raw = None ∨ raw_country raw = None
    ∨ (∃ text, raw_distance raw = NotAnInt text)
    ∨ (∃ text, raw_width raw = NotAnInt text)
    ∨ (∃ text, raw_height raw = NotAnInt text)
    ∨ (∃ v, raw_distance raw = IntValue v ∧ (v < 1000 ∨ 20000 < v))
    ∨ (∃ v, raw_width raw = IntValue v ∧ (v < 6 ∨ 24 < v))
    ∨ (∃ v, raw_height raw = IntValue v ∧ (v < 8 ∨ 32 < v)).
Proof.
  unfold generate_route, read_generate.
  destruct raw as [c k t d dc dk w h]; cbn.
  destruct d as [|d|d]; cbn;
    [| | split; [intros _; do 2 right; left; by exists d | done]];
    (destruct w as [|w|w]; cbn;
       [| | split; [intros _; do 3 right; left; by exists w | done]]);
    (destruct h as [|h|h]; cbn;
       [| | split; [intros _; do 4 right; left; by exists h | done]]);
    rewrite generate_endpoint_validation_error; unfold outside; cbn;
    (split; intros Hcases;
     repeat match goal with
            | H : _ ∨ _ |- _ => destruct H
            | H : ∃ _, _ |- _ => destruct H
            | H : _ ∧ _ |- _ => destruct H
            end;
     simplify_eq; eauto 15).
Qed.

(** [/preview] declares no bounds: it answers with a validation error
    exactly when [city] or [country] is missing, and then calls nothing. *)
Theorem preview_validation_error_iff collab q fs :
  (reply (preview_endpoint collab q fs) = ValidationError ↔
     pq_city q = None ∨ pq_country q = None) ∧
  (reply (preview_endpoint collab q fs) = ValidationError →
     calls (preview_endpoint collab q fs) = [] ∧ disk (preview_endpoint collab q fs) = fs).
Proof.
  unfold preview_endpoint, bind_preview, Query_required, Query_default.
  destruct (pq_city q) as [c|], (pq_country q) as [k|]; cbn;
    try (split; [split; [auto | done] | done]).
  unfold serve. cbn.
  destruct (outcome (preview_poster collab _ fs)) as [r|[]]; cbn;
    (split; [split; [done | by intros [|]] | done]).
Qed.

(** What the request supplies reaches [generate_poster] unchanged. *)
Theorem supplied_parameters_pass_through q req
    (Haccepted : bind_generate q = Some req) :
  q_city q = Some (city req) ∧
  q_country q = Some (country req) ∧
  (∀ t, q_theme q = Some t → theme req = t) ∧
  (∀ d, q_distance q = Some d → distance req = d) ∧
  (∀ w, q_width q = Some w → width req = w) ∧
  (∀ h, q_height q = Some h → height req = h) ∧
  display_city req = q_display_city q ∧
  display_country req = q_display_country q.
Proof.
  unfold bind_generate, Query_required, Query_default in Haccepted.
  destruct q as [c k t d dc dk w h]; cbn in *.
  destruct c; [|done]. destruct k; [|done]. cbn in Haccepted.
  destruct (Query_bounded 5000 1000 20000 d) as [d'|] eqn:Hd; [|done]. cbn in Haccepted.
  destruct (Query_bounded 12 6 24 w) as [w'|] eqn:Hw; [|done]. cbn in Haccepted.
  destruct (Query_bounded 16 8 32 h) as [h'|] eqn:Hh; [|done]. cbn in Haccepted.
  injection Haccepted as <-. cbn.
  apply Query_bounded_Some in Hd as [_ Hd]; [|lia].
  apply Query_bounded_Some in Hw as [_ Hw]; [|lia].
  apply Query_bounded_Some in Hh as [_ Hh]; [|lia].
  repeat split; try (by destruct dc); try (by destruct dk).
  - by intros ? ->.
  - intros ? ->. destruct Hd as [[? _]|?]; congruence.
  - intros ? ->. destruct Hw as [[? _]|?]; congruence.
  - intros ? ->. destruct Hh as [[? _]|?]; congruence.
Qed.

Lemma supplied_parameters_pass_through_witness :
  distance {| city := "Taipei"; country := "Taiwan"; theme := "blueprint"; distance := 1000;
              display_city := Some "Taibei"; display_country := None;
              width := 24; height := 32 |} = 1000.
Proof.
  exact (proj1 (proj2 (proj2 (proj2
           (supplied_parameters_pass_through
              {| q_city := Some "Taipei"; q_country := Some "Taiwan";
                 q_theme := Some "blueprint"; q_distance := Some 1000;
                 q_display_city := Some "Taibei"; q_display_country := None;
                 q_width := Some 24; q_height := Some 32 |}
              {| city := "Taipei"; country := "Taiwan"; theme := "blueprint";
                 distance := 1000; display_city := Some "Taibei"; display_country := None;
                 width := 24; height := 32 |} eq_refl)))) 1000 eq_refl).
Defined.

(** ** Every run of [generate_poster] *)

(** Splits a run of [generate_poster] on the results of its
    collaborators, in the order the handler consults them. *)
Ltac generate_cases collab req fs :=
  let e := fresh "e" in
  step_handler; unfold no_such_file in *;
  destruct (load_theme collab (theme req)) as [?theme_data|e] eqn:?Hload; cbn in *;
  [ destruct (truthy _) eqn:?Htruthy; cbn in *;
    [ destruct (get_coordinates collab (city req) (country req)) as [?coords|e]
        eqn:?Hgeo; cbn in *;
      [ destruct (temp_name collab ".png" fs) as [?path|e] eqn:?Htmp; cbn in *;
        [ destruct (create_poster collab _ _) as [[[]|e] ?fs'] eqn:?Hrender; cbn in *;
          [ match goal with
            | Hr : create_poster collab _ _ = (_, ?written),
              Ht : temp_name collab _ _ = Ok ?created |- _ =>
                destruct (written !! created) as [?image_data|] eqn:?Hread; cbn in *;
                [ destruct (latin1_encodable _) eqn:?Hencodable; cbn in * | ]
            end
          | destruct e; cbn in * ]
        | destruct e; cbn in * ]
      | destruct e; cbn in * ]
    | ]
  | destruct e; cbn in * ].

(** A run that never reaches [create_poster] leaves the disk exactly as
    it found it. *)
Theorem generate_without_rendering_leaves_disk collab req fs
    (Hnot_rendered : ∀ args, CallCreatePoster args ∉ trace (generate_poster collab req fs)) :
  files (generate_poster collab req fs) = fs.
Proof.
  generate_cases collab req fs; try done;
    exfalso; eapply Hnot_rendered; in_trace.
Qed.

Lemma generate_without_rendering_leaves_disk_witness :
  files (generate_poster Demo.collab (Demo.request "Nowhere123" "Nowhere" "noir")
           {[ "/tmp/other.png" := Demo.png ]})
  = {[ "/tmp/other.png" := Demo.png ]}.
Proof.
  apply generate_without_rendering_leaves_disk.
  intros args. cbn. not_in_trace.
Defined.

Lemma create_poster_call_args collab req fs args :
  CallCreatePoster args ∈ trace (generate_poster collab req fs) →
  ∃ coords path,
    get_coordinates collab (city req) (country req) = Ok coords ∧
    temp_name collab ".png" fs = Ok path ∧
    args = poster_args req coords path.
Proof.
  intros Hcalled.
  generate_cases collab req fs;
    repeat (apply elem_of_cons in Hcalled as [Hcalled | Hcalled];
            [try discriminate Hcalled |]);
    try (by apply elem_of_nil in Hcalled);
    injection Hcalled as ->; eauto.
Qed.

(** [create_poster] is only ever called with the request's own fields,
    the coordinates the geocoder returned, the format ["png"], and as
    output file the temporary file created just before. *)
Theorem renderer_receives_request collab req fs args
    (Hcalled : CallCreatePoster args ∈ trace (generate_poster collab req fs)) :
  ∃ coords path,
    get_coordinates collab (city req) (country req) = Ok coords ∧
    temp_name collab ".png" fs = Ok path ∧
    args = poster_args req coords path.
Proof. exact (create_poster_call_args collab req fs args Hcalled). Qed.

Lemma renderer_receives_request_witness :
  ∃ coords path,
    Demo.geocoder "Taipei" "Taiwan" = Ok coords ∧
    Demo.tmp ".png" ∅ = Ok path ∧
    poster_args (Demo.request "Taipei" "Taiwan" "noir") Demo.taipei "/tmp/tmpk3x9a.png"
    = poster_args (Demo.request "Taipei" "Taiwan" "noir") coords path.
Proof.
  apply (renderer_receives_request Demo.collab (Demo.request "Taipei" "Taiwan" "noir") ∅).
  cbn. in_trace.
Defined.

(** Through [GET /generate] the renderer only ever sees a radius in
    [1000, 20000], a width in [6, 24] and a height in [8, 32]. *)
Theorem renderer_sees_validated_sizes collab q fs args
    (Hcalled : CallCreatePoster args ∈ calls (generate_endpoint collab q fs)) :
  1000 ≤ arg_dist args ≤ 20000 ∧ 6 ≤ arg_width args ≤ 24 ∧ 8 ≤ arg_height args ≤ 32.
Proof.
  unfold generate_endpoint in Hcalled.
  destruct (bind_generate q) as [req|] eqn:Hbind;
    [|by apply elem_of_nil in Hcalled].
  destruct (create_poster_call_args collab req fs args Hcalled)
    as (coords & path & _ & _ & ->).
  exact (bind_generate_bounds q req Hbind).
Qed.

Lemma renderer_sees_validated_sizes_witness :
  1000 ≤ 5000 ≤ 20000 ∧ 6 ≤ 12 ≤ 24 ∧ 8 ≤ 16 ≤ 32.
Proof.
  apply (renderer_sees_validated_sizes Demo.collab (Demo.query "Taipei" "Taiwan" None) ∅
           (poster_args (Demo.request "Taipei" "Taiwan" "noir") Demo.taipei
              "/tmp/tmpk3x9a.png")).
  cbn. in_trace.
Defined.

(** The only file [generate_poster] opens or unlinks is the temporary
    file it created itself. *)
Theorem generate_touches_only_its_file collab req fs path
    (Htouched : CallOpenRead path ∈ trace (generate_poster collab req fs)
                ∨ CallUnlink path ∈ trace (generate_poster collab req fs)) :
  temp_name collab ".png" fs = Ok path.
Proof.
  generate_cases collab req fs;
    destruct Htouched as [Hin | Hin];
    repeat (apply elem_of_cons in Hin as [Hin | Hin]; [try discriminate Hin |]);
    try (by apply elem_of_nil in Hin);
    by injection Hin as ->.
Qed.

Lemma generate_touches_only_its_file_witness :
  Demo.tmp ".png" ∅ = Ok "/tmp/tmpk3x9a.png".
Proof.
  apply (generate_touches_only_its_file Demo.collab (Demo.request "Taipei" "Taiwan" "noir")).
  right. cbn. in_trace.
Defined.

(** When the renderer writes nowhere but to its output file, every file
    other than the temporary one is the same before and after the run. *)
Theorem generate_preserves_other_files collab req fs other
    (Hrenderer : ∀ args fs0, arg_output_file args ≠ other →
                   (create_poster collab args fs0).2 !! other = fs0 !! other)
    (Hother : temp_name collab ".png" fs ≠ Ok other) :
  files (generate_poster collab req fs) !! other = fs !! other.
Proof.
  generate_cases collab req fs; try done;
    assert (Hne : path ≠ other) by congruence;
    match goal with
    | Hr : create_poster collab ?args ?fs0 = _ |- _ =>
        pose proof (Hrenderer args fs0 Hne) as Hkeep; rewrite Hr in Hkeep; cbn in Hkeep
    end;
    rewrite ?lookup_delete_ne by done;
    by rewrite Hkeep, lookup_insert_ne.
Qed.

Lemma generate_preserves_other_files_witness :
  files (generate_poster Demo.collab (Demo.request "Taipei" "Taiwan" "noir")
           {[ "/tmp/other.png" := Demo.png ]}) !! "/tmp/other.png"
  = ({[ "/tmp/other.png" := Demo.png ]} : Files) !! "/tmp/other.png".
Proof.
  apply generate_preserves_other_files.
  - intros args fs0 Hne. cbn. apply lookup_insert_ne, Hne.
  - discriminate.
Defined.

(** A successful answer of [generate_poster] is always the streamed PNG
    with the derived file name, which latin-1 can encode, and by then
    the temporary file has been unlinked and is gone from the disk. *)
Theorem generate_success_shape collab req fs response
    (Hsuccess : reply (serve (generate_poster collab req) fs) = Success response) :
  ∃ path image_data,
    temp_name collab ".png" fs = Ok path ∧
    response =
      StreamingResponse image_data "image/png"
        [("Content-Disposition",
          "attachment; filename=" +:+ str_lower collab (city req) +:+ "_" +:+ theme req
            +:+ "_poster.png")] ∧
    latin1_encodable
      ("attachment; filename=" +:+ str_lower collab (city req) +:+ "_" +:+ theme req
         +:+ "_poster.png") = true ∧
    (CallUnlink path ∈ calls (serve (generate_poster collab req) fs)) ∧
    disk (serve (generate_poster collab req) fs) !! path = None.
Proof.
  generate_cases collab req fs; try discriminate Hsuccess.
  injection Hsuccess as <-. exists path, image_data.
  split; [done | split; [done | split; [done | split; [in_trace | apply lookup_delete_eq]]]].
Qed.

Lemma generate_success_shape_witness :
  ∃ path image_data,
    Demo.tmp ".png" ∅ = Ok path ∧
    StreamingResponse Demo.png "image/png"
      [("Content-Disposition", "attachment; filename=taipei_noir_poster.png")] =
      StreamingResponse image_data "image/png"
        [("Content-Disposition", "attachment; filename=taipei_noir_poster.png")] ∧
    latin1_encodable "attachment; filename=taipei_noir_poster.png" = true ∧
    (CallUnlink path ∈
       calls (serve (generate_poster Demo.collab (Demo.request "Taipei" "Taiwan" "noir")) ∅)) ∧
    disk (serve (generate_poster Demo.collab (Demo.request "Taipei" "Taiwan" "noir")) ∅)
      !! path = None.
Proof.
  exact (generate_success_shape Demo.collab (Demo.request "Taipei" "Taiwan" "noir") ∅ _
           eq_refl).
Defined.

(** When the renderer reports success but its output file is not there,
    the read-back fails and the request is answered with status 500 and
    the operating system's message, which names the file by its [repr];
    [os.unlink] is not attempted. *)
Theorem generate_missing_artifact_is_server_error
    collab req fs theme_data coords path fs'
    (Hload : load_theme collab (theme req) = Ok theme_data)
    (Htruthy : truthy theme_data = true)
    (Hgeo : get_coordinates collab (city req) (country req) = Ok coords)
    (Htmp : temp_name collab ".png" fs = Ok path)
    (Hrender : create_poster collab (poster_args req coords path) (<[path := []]> fs)
               = (Ok tt, fs'))
    (Hgone : fs' !! path = None) :
  reply (serve (generate_poster collab req) fs) =
    Failure 500 ("Error generating poster: [Errno 2] No such file or directory: "
                   +:+ str_repr collab path) ∧
  (CallUnlink path ∉ calls (serve (generate_poster collab req) fs)).
Proof.
  unfold poster_args in Hrender. step_handler.
  rewrite Hload. cbn. rewrite Htruthy. cbn. rewrite Hgeo. cbn. rewrite Htmp. cbn.
  rewrite Hrender. cbn. rewrite Hgone. cbn. split; [done | not_in_trace].
Qed.

Lemma generate_missing_artifact_is_server_error_witness :
  reply (serve (generate_poster Scenario.vanishing (Demo.request "Taipei" "Taiwan" "noir")) ∅)
  = Failure 500
      "Error generating poster: [Errno 2] No such file or directory: '/tmp/tmpk3x9a.png'".
Proof.
  exact (proj1 (generate_missing_artifact_is_server_error Scenario.vanishing
                  (Demo.request "Taipei" "Taiwan" "noir") ∅ (Some Demo.noir) Demo.taipei
                  "/tmp/tmpk3x9a.png"
                  (delete "/tmp/tmpk3x9a.png" (<["/tmp/tmpk3x9a.png" := []]> ∅))
                  eq_refl eq_refl eq_refl eq_refl eq_refl eq_refl)).
Defined.



(** ** Every run of [preview_poster] *)

(** [preview_poster] asks the geocoder first and the theme store only
    when the geocoder answered; it makes no other call and leaves the
    disk as it was, whether it succeeds or fails. *)
Theorem preview_run_shape collab req fs :
  files (preview_poster collab req fs) = fs ∧
  ((∃ e, get_coordinates collab (preview_city req) (preview_country req) = Raise e ∧
         trace (preview_poster collab req fs) =
           [CallGetCoordinates (preview_city req) (preview_country req)])
   ∨ (∃ coords, get_coordinates collab (preview_city req) (preview_country req) = Ok coords ∧
                trace (preview_poster collab req fs) =
                  [CallGetCoordinates (preview_city req) (preview_country req);
                   CallLoadTheme (preview_theme req)])).
Proof.
  step_handler.
  destruct (get_coordinates collab _ _) as [coords|e]; cbn.
  - destruct (load_theme collab _) as [[d|]|e]; cbn; try destruct e; cbn;
      (split; [done | right; eauto]).
  - destruct e; cbn; (split; [done | left; eauto]).
Qed.

(** An exception that stops [preview_poster] is answered with status 400
    and its message when it is a [ValueError], with its own status and
    detail when it is an [HTTPException], and with the framework's bare
    500 otherwise. *)
Theorem preview_exception_mapping collab req fs e
    (Hraised : outcome (preview_body collab req fs) = Raise e) :
  reply (serve (preview_poster collab req) fs) =
    match e with
    | ValueError message => Failure 400 message
    | HTTPException status_code detail => Failure status_code detail
    | OtherException _ _ => Failure 500 "Internal Server Error"
    end.
Proof.
  unfold serve, preview_poster. rewrite (try_except_raise _ _ _ _ Hraised).
  by destruct e.
Qed.

Lemma preview_exception_mapping_witness :
  reply (serve (preview_poster Scenario.offline
                  (Scenario.preview_request "Taipei" "Taiwan" "noir")) ∅)
  = Failure 500 "Internal Server Error".
Proof.
  exact (preview_exception_mapping Scenario.offline
           (Scenario.preview_request "Taipei" "Taiwan" "noir") ∅
           (OtherException "ConnectionError" "Max retries exceeded") eq_refl).
Defined.

(** [preview_poster] succeeds only when the geocoder returned
    coordinates and the theme store returned a [dict], and the record it
    returns is then built from exactly those. *)
Theorem preview_success_shape collab req fs response
    (Hsuccess : reply (serve (preview_poster collab req) fs) = Success response) :
  ∃ coords descriptor,
    get_coordinates collab (preview_city req) (preview_country req) = Ok coords ∧
    load_theme collab (preview_theme req) = Ok (Some descriptor) ∧
    response =
      PreviewResponse
        {| info_city := preview_city req;
           info_country := preview_country req;
           info_latitude := fst coords;
           info_longitude := snd coords;
           info_theme_name := preview_theme req;
           info_theme_description := default "" (descriptor !! "description") |}.
Proof.
  step_handler.
  destruct (get_coordinates collab _ _) as [coords|e]; cbn in *.
  - destruct (load_theme collab _) as [[d|]|e]; cbn in *;
      try destruct e; cbn in *; try discriminate Hsuccess.
    injection Hsuccess as <-. eauto.
  - destruct e; discriminate Hsuccess.
Qed.

Lemma preview_success_shape_witness :
  ∃ coords descriptor,
    Demo.geocoder "Taipei" "Taiwan" = Ok coords ∧
    Scenario.empty_themes "anything" = Ok (Some descriptor) ∧
    PreviewResponse
      {| info_city := "Taipei"; info_country := "Taiwan";
         info_latitude := fst Demo.taipei; info_longitude := snd Demo.taipei;
         info_theme_name := "anything"; info_theme_description := "" |} =
    PreviewResponse
      {| info_city := "Taipei"; info_country := "Taiwan";
         info_latitude := fst coords; info_longitude := snd coords;
         info_theme_name := "anything";
         info_theme_description := default "" (descriptor !! "description") |}.
Proof.
  exact (preview_success_shape Scenario.blank
           (Scenario.preview_request "Taipei" "Taiwan" "anything") ∅ _ eq_refl).
Defined.

(** ** The two handlers on the same theme *)

(** For a theme the store answers with an empty [dict], the two handlers
    disagree: [generate_poster] treats it as unknown and answers 500,
    [preview_poster] accepts it and returns an empty description. *)
Theorem empty_descriptor_generate_and_preview_disagree collab req fs coords
    (Hgeo : get_coordinates collab (city req) (country req) = Ok coords)
    (Hload : load_theme collab (theme req) = Ok (Some ∅)) :
  reply (serve (generate_poster collab req) fs) =
    Failure 500 ("Error generating poster: 400: Theme '" +:+ theme req +:+ "' not found") ∧
  reply (serve (preview_poster collab
                  {| preview_city := city req; preview_country := country req;
                     preview_theme := theme req |}) fs) =
    Success (PreviewResponse
               {| info_city := city req;
                  info_country := country req;
                  info_latitude := fst coords;
                  info_longitude := snd coords;
                  info_theme_name := theme req;
                  info_theme_description := "" |}).
Proof.
  split.
  - unfold serve, generate_poster.
    by rewrite (try_except_raise _ _ _ _
                  (f_equal outcome (body_theme_missing collab req fs _ Hload eq_refl))).
  - step_handler. cbn. rewrite Hgeo. cbn. by rewrite Hload.
Qed.

Lemma empty_descriptor_generate_and_preview_disagree_witness :
  reply (serve (generate_poster Scenario.blank (Demo.request "Taipei" "Taiwan" "pastel")) ∅) =
    Failure 500 "Error generating poster: 400: Theme 'pastel' not found" ∧
  reply (serve (preview_poster Scenario.blank
                  (Scenario.preview_request "Taipei" "Taiwan" "pastel")) ∅) =
    Success (PreviewResponse
               {| info_city := "Taipei"; info_country := "Taiwan";
                  info_latitude := fst Demo.taipei; info_longitude := snd Demo.taipei;
                  info_theme_name := "pastel"; info_theme_description := "" |}).
Proof.
  exact (empty_descriptor_generate_and_preview_disagree Scenario.blank
           (Demo.request "Taipei" "Taiwan" "pastel") ∅ Demo.taipei eq_refl eq_refl).
Defined.
